(** * qlog: a structured-logging facade over zap

    A shallow embedding of [qlog/logger.go] (and of the level constants
    of the package's second file), with the properties of its
    context-polymorphic field extraction and of its emission paths.

    The program talks to four collaborators that are not part of the
    package: the process environment ([os.LookupEnv]), the raw output
    channel (the builtin [println]), the request contexts of gin,
    net/http and fasthttp, and the zap engine.  Every interaction with
    one of them is recorded as an [Event], in program order, so that a
    run of a logger method is a pure function from the environment to
    the trace of what it did. *)

From Stdlib Require Import Ascii String.
From stdpp Require Import base option list strings gmap pretty.

Local Open Scope string_scope.
Local Open Scope list_scope.

(** ** Go values held behind [interface{}] *)

(** The dynamic values a [map[string]interface{}], a gin key store or a
    fasthttp user-value store may hold, as far as the logger can tell
    them apart: a string, or something else. *)
Inductive GoValue : Type :=
  | VNil
  | VString (s : string)
  | VInt (n : Z)
  | VBool (b : bool).

#[global] Instance GoValue_eq_dec : EqDecision GoValue.
Proof. solve_decision. Defined.

(** ** The zap engine, as far as the facade uses it *)

Module zap.

(** zapcore.Level *)
Inductive Level : Type :=
  | DebugLevel | InfoLevel | WarnLevel | ErrorLevel
  | DPanicLevel | PanicLevel | FatalLevel.

#[global] Instance Level_eq_dec : EqDecision Level.
Proof. solve_decision. Defined.

(** The payload of a [zap.Field]: [zap.String] stores a string,
    [zap.Any] applied to a [map[string]interface{}] stores the map
    itself (zap's reflected field). *)
Inductive FieldValue : Type :=
  | StringType (s : string)
  | ReflectType (m : gmap string GoValue).

#[global] Instance FieldValue_eq_dec : EqDecision FieldValue.
Proof. solve_decision. Defined.

Record Field : Type := mkField { Key : string; Value : FieldValue }.

#[global] Instance Field_eq_dec : EqDecision Field.
Proof. solve_decision. Defined.

(** zap.String(key, val) *)
Definition String (key val : string) : Field := mkField key (StringType val).

(** zap.Any(key, value), at the one type the package calls it with. *)
Definition Any (key : string) (value : gmap string GoValue) : Field :=
  mkField key (ReflectType value).

End zap.

(** ** Effects *)

(** What a logger method does to the outside world. *)
Inductive Event : Type :=
  | EvLookupEnv (key : string)
      (* os.LookupEnv(key) *)
  | EvGetString (key : string)
      (* gin.Context.GetString(key) *)
  | EvUserValue (key : string)
      (* fasthttp.RequestCtx.UserValue(key) *)
  | EvPrintln (s : string)
      (* println(s): one line on the raw, unbuffered channel *)
  | EvZap (lvl : zap.Level) (msg : string) (fields : list zap.Field).
      (* l.Zap.<Level>(msg, fields...) *)

#[global] Instance Event_eq_dec : EqDecision Event.
Proof. solve_decision. Defined.

(** The process environment: a variable is unset ([None]) or set,
    possibly to the empty string. *)
Abbreviation Env := (gmap string string).

(** A computation reads the environment and yields the events it
    caused, oldest first, with its result. *)
Definition Eff (A : Type) : Type := Env -> list Event * A.

Definition ret {A} (x : A) : Eff A := fun _ => ([], x).

Definition bind {A B} (m : Eff A) (k : A -> Eff B) : Eff B :=
  fun env =>
    let '(t1, x) := m env in
    let '(t2, y) := k x env in
    (t1 ++ t2, y).

Definition emit (e : Event) : Eff unit := fun _ => ([e], tt).

Declare Scope eff_scope.
Delimit Scope eff_scope with eff.
Notation "'do' x <- m ; k" := (bind m (fun x => k))
  (at level 10, x name, m at level 100, k at level 200) : eff_scope.
Local Open Scope eff_scope.

(** The trace and the result of a run. *)
Definition trace {A} (m : Eff A) (env : Env) : list Event := (m env).1.
Definition result {A} (m : Eff A) (env : Env) : A := (m env).2.

(** ** The collaborators *)

Module os.

(** os.LookupEnv(key): the value and whether the variable is set, read
    afresh at every call. *)
Definition LookupEnv (key : string) : Eff (option string) :=
  fun env => ([EvLookupEnv key], env !! key).

End os.

(** The builtin println. *)
Definition println (s : string) : Eff unit := emit (EvPrintln s).

Module gin.

(** gin.Context, reduced to its key store ([c.Keys], filled by
    [c.Set]). *)
Record Context : Type := mkContext { Keys : gmap string GoValue }.

(** What c.GetString(key) returns: the value under [key] when it is a
    string, the empty string when the key is missing or holds another
    type. *)
Definition get_string (c : Context) (key : string) : string :=
  match Keys c !! key with
  | Some (VString s) => s
  | _ => ""
  end.

(** c.GetString(key) *)
Definition GetString (c : Context) (key : string) : Eff string :=
  do _ <- emit (EvGetString key);
  ret (get_string c key).

End gin.

Module http.

(** net/http's Request; the logger reads none of its fields. *)
Record Request : Type := mkRequest { Method : string; RequestURI : string }.

End http.

Module fasthttp.

(** fasthttp.RequestCtx, reduced to its user values (filled by
    [ctx.SetUserValue]). *)
Record RequestCtx : Type := mkRequestCtx { userValues : gmap string GoValue }.

(** What ctx.UserValue(key) returns: the stored value, nil when there
    is none. *)
Definition user_value (c : RequestCtx) (key : string) : GoValue :=
  default VNil (userValues c !! key).

(** ctx.UserValue(key) *)
Definition UserValue (c : RequestCtx) (key : string) : Eff GoValue :=
  do _ <- emit (EvUserValue key);
  ret (user_value c key).

End fasthttp.

(** The functions of other packages that the logger calls and whose
    code is not part of this package are parameters of the
    development. *)

Module stg.

(** stg.IsEmpty(&s) of correct-util-sdk-go. *)
Class Impl : Type := { IsEmpty : string -> bool }.

End stg.

Module fmt.

(** fmt.Sprintf(format, args...): total, it reports a mismatch between
    verbs and operands inside the string it returns. *)
Class Impl : Type := { Sprintf : string -> list GoValue -> string }.

End fmt.

Module json.

(** json.Valid([]byte(s)) *)
Class Impl : Type := { Valid : string -> bool }.

End json.

(** The engine call [l.Zap.<Level>(msg, fields...)]. *)
Definition Zap (lvl : zap.Level) (msg : string) (fields : list zap.Field) : Eff unit :=
  emit (EvZap lvl msg fields).

(** ** Package qlog *)

(** The level names of the package. *)
Definition LevelError : Type := string.

Definition DebugLevel : LevelError := "debug".
Definition InfoLevel : LevelError := "info".
Definition WarnLevel : LevelError := "warn".
Definition ErrorLevel : LevelError := "error".
Definition DPanicLevel : LevelError := "dpanic".
Definition PanicLevel : LevelError := "panic".
Definition FatalLevel : LevelError := "fatal".

(** Keys used for logging context JSON. *)
Definition KeyAPIRequestID : string := "api-request-id".
Definition KeyDomainName : string := "domain-name".
Definition KeySourceIP : string := "source-ip".
Definition KeyProtocol : string := "protocol".
Definition KeyAPIKey : string := "api-key".
Definition KeyDomainPrefix : string := "domain-prefix".
Definition KeyXRequestID : string := "x-request-id".
Definition KeyAccount : string := "account".
Definition KeyService : string := "service".
Definition KeyRequestURI : string := "request_uri".

(** The [interface{}] a Logger holds, by its dynamic type: the nil
    interface, a pointer to one of the three request types the logger
    knows, or a value of any other type.  The pointers of this type
    point to a request; module [Full] below has the methods on every
    interface value, a nil pointer of one of the three types
    included, where a method may panic. *)
Inductive LoggingContext : Type :=
  | CtxNil
  | CtxGin (value : gin.Context)
  | CtxRequest (value : http.Request)
  | CtxFasthttp (value : fasthttp.RequestCtx)
  | CtxOther (value : GoValue).

(** The two-result type assertions [value, ok := ctx.(T)], for T the
    pointer to gin.Context, to http.Request and to
    fasthttp.RequestCtx. *)
Definition as_gin (ctx : LoggingContext) : option gin.Context :=
  match ctx with CtxGin value => Some value | _ => None end.

Definition as_request (ctx : LoggingContext) : option http.Request :=
  match ctx with CtxRequest value => Some value | _ => None end.

Definition as_fasthttp (ctx : LoggingContext) : option fasthttp.RequestCtx :=
  match ctx with CtxFasthttp value => Some value | _ => None end.

(** Logger: the context it was built with.  Its zap engine is the
    sink of the [EvZap] events. *)
Record Logger : Type := mkLogger { Context : LoggingContext }.

(** NewProduction(context) *)
Definition NewProduction (context : LoggingContext) : Logger :=
  {| Context := context |}.

(** LoggerExtras - extras keys *)
Record LoggerExtras : Type := mkLoggerExtras {
  Key : string;
  Value : gmap string GoValue;
  Filter : list string
}.

Section Logger.

Context `{!stg.Impl, !fmt.Impl, !json.Impl}.

(** [fields = append(fields, f)] under a two-result guard. *)
Definition append_if {A} (cond : option A) (fields : list zap.Field)
    (f : A -> zap.Field) : list zap.Field :=
  match cond with
  | Some x => fields ++ [f x]
  | None => fields
  end.

Definition logFromContext (l : Logger) (ctx : LoggingContext) : Eff (list zap.Field) :=
  let fields : list zap.Field := [] in
  do fields <-
    match as_gin ctx with
    | Some value =>
        do uuid <- gin.GetString value "request_id";
        let fields :=
          if negb (stg.IsEmpty uuid)
          then fields ++ [zap.String KeyXRequestID uuid]
          else fields in
        do service <- os.LookupEnv "SERVICE_NAME";
        ret (append_if service fields (zap.String KeyService))
    | None => ret fields
    end;
  do fields <-
    match as_request ctx with
    | Some _ =>
        do service <- os.LookupEnv "SERVICE_NAME";
        ret (append_if service fields (zap.String KeyService))
    | None => ret fields
    end;
  match as_fasthttp ctx with
  | Some value =>
      do v <- fasthttp.UserValue value "request_id";
      let fields :=
        match v with
        | VString uuid => fields ++ [zap.String KeyXRequestID uuid]
        | _ => fields
        end in
      do service <- os.LookupEnv "SERVICE_NAME";
      ret (append_if service fields (zap.String KeyService))
  | None => ret fields
  end.

(** The message handed to the engine by the five level methods:
    formatted only when operands were passed. *)
Definition format_if_args (msg : string) (keysAndValues : list GoValue) : string :=
  if (0 <? length keysAndValues)%nat then fmt.Sprintf msg keysAndValues else msg.

(** Fatal logs a message at FatalLevel.  (zap then ends the process;
    nothing of the method runs after the engine call.) *)
Definition Fatal (l : Logger) (msg : string) (keysAndValues : list GoValue) : Eff unit :=
  do debug <- os.LookupEnv "GO_DEBUG";
  match debug with
  | Some _ => println (fmt.Sprintf msg keysAndValues)
  | None =>
      do nrfs <- logFromContext l (Context l);
      let msg := format_if_args msg keysAndValues in
      Zap zap.FatalLevel msg nrfs
  end.

(** Error logs a message at ErrorLevel. *)
Definition Error (l : Logger) (msg : string) (keysAndValues : list GoValue) : Eff unit :=
  do debug <- os.LookupEnv "GO_DEBUG";
  match debug with
  | Some _ => println (fmt.Sprintf msg keysAndValues)
  | None =>
      do nrfs <- logFromContext l (Context l);
      let msg := format_if_args msg keysAndValues in
      Zap zap.ErrorLevel msg nrfs
  end.

(** Warn logs a message at WarnLevel. *)
Definition Warn (l : Logger) (msg : string) (keysAndValues : list GoValue) : Eff unit :=
  do debug <- os.LookupEnv "GO_DEBUG";
  match debug with
  | Some _ => println (fmt.Sprintf msg keysAndValues)
  | None =>
      do nrfs <- logFromContext l (Context l);
      let msg := format_if_args msg keysAndValues in
      Zap zap.WarnLevel msg nrfs
  end.

(** Info logs a message at InfoLevel. *)
Definition Info (l : Logger) (msg : string) (keysAndValues : list GoValue) : Eff unit :=
  do debug <- os.LookupEnv "GO_DEBUG";
  match debug with
  | Some _ => println (fmt.Sprintf msg keysAndValues)
  | None =>
      do nrfs <- logFromContext l (Context l);
      let msg := format_if_args msg keysAndValues in
      Zap zap.InfoLevel msg nrfs
  end.

(** Debug logs a message at DebugLevel. *)
Definition Debug (l : Logger) (msg : string) (keysAndValues : list GoValue) : Eff unit :=
  do debug <- os.LookupEnv "GO_DEBUG";
  match debug with
  | Some _ => println (fmt.Sprintf msg keysAndValues)
  | None =>
      do nrfs <- logFromContext l (Context l);
      let msg := format_if_args msg keysAndValues in
      Zap zap.DebugLevel msg nrfs
  end.

(** InfoJSON - print map.  The fields are computed before the
    GO_DEBUG test, as in the source. *)
Definition InfoJSON (l : Logger) (msg jbs : string) (keys : LoggerExtras) : Eff unit :=
  do nrfs <- logFromContext l (Context l);
  do debug <- os.LookupEnv "GO_DEBUG";
  match debug with
  | Some _ => println msg
  | None =>
      if negb (json.Valid jbs) then Zap zap.InfoLevel msg nrfs
      else
        let nrfs :=
          if negb (stg.IsEmpty (Key keys)) && (0 <? size (Value keys))%nat
          then nrfs ++ [zap.Any (Key keys) (Value keys)]
          else nrfs in
        Zap zap.InfoLevel (fmt.Sprintf "%s %s" [VString msg; VString jbs]) nrfs
  end.

End Logger.

(** ** The five level methods, by level *)

(** The levels the facade has a method for. *)
Inductive Severity : Type := SFatal | SError | SWarn | SInfo | SDebug.

Definition zap_level (sev : Severity) : zap.Level :=
  match sev with
  | SFatal => zap.FatalLevel
  | SError => zap.ErrorLevel
  | SWarn => zap.WarnLevel
  | SInfo => zap.InfoLevel
  | SDebug => zap.DebugLevel
  end.

Definition log_method `{!stg.Impl, !fmt.Impl} (sev : Severity)
  : Logger -> string -> list GoValue -> Eff unit :=
  match sev with
  | SFatal => Fatal
  | SError => Error
  | SWarn => Warn
  | SInfo => Info
  | SDebug => Debug
  end.

(** ** Reading a trace *)

(** The records handed to the engine. *)
Definition zap_calls (t : list Event) : list (zap.Level * string * list zap.Field) :=
  omap (fun e => match e with
                 | EvZap lvl msg fields => Some (lvl, msg, fields)
                 | _ => None
                 end) t.

(** The lines written to the raw channel. *)
Definition raw_writes (t : list Event) : list string :=
  omap (fun e => match e with EvPrintln s => Some s | _ => None end) t.

(** The reads of the logger's context. *)
Definition context_reads (t : list Event) : list Event :=
  omap (fun e => match e with
                 | EvGetString _ | EvUserValue _ => Some e
                 | _ => None
                 end) t.

(** The environment variables looked up. *)
Definition env_lookups (t : list Event) : list string :=
  omap (fun e => match e with EvLookupEnv key => Some key | _ => None end) t.

(** The fields of a set that carry a given key. *)
Definition with_key (key : string) (fields : list zap.Field) : list zap.Field :=
  filter (fun f => zap.Key f = key) fields.

(** The field the environment contributes inside a matched branch of
    [logFromContext]. *)
Definition service_fields (env : Env) : list zap.Field :=
  match env !! "SERVICE_NAME" with
  | Some service => [zap.String KeyService service]
  | None => []
  end.

(** The events of one extraction pass over a context. *)
Definition extraction_events (ctx : LoggingContext) : list Event :=
  match ctx with
  | CtxGin _ => [EvGetString "request_id"; EvLookupEnv "SERVICE_NAME"]
  | CtxRequest _ => [EvLookupEnv "SERVICE_NAME"]
  | CtxFasthttp _ => [EvUserValue "request_id"; EvLookupEnv "SERVICE_NAME"]
  | CtxNil | CtxOther _ => []
  end.

(** ** The pipeline as the specification words it

    The specification splits the field assembly into a ContextAdapter
    and an EnvironmentEnricher and emits the enricher applied to the
    adapter's fields.  These definitions follow its sections 4.1, 4.3
    and 4.4; the theorems compare them with [logFromContext]. *)

Module Spec.

(** EnvironmentEnricher.enrich (4.3): append [service] when the
    variable is set, leave the set unchanged otherwise. *)
Definition enrich (env : Env) (fields : list zap.Field) : list zap.Field :=
  match env !! "SERVICE_NAME" with
  | Some service => fields ++ [zap.String "service" service]
  | None => fields
  end.

(** ContextAdapter.extract (4.1): the rule of the shape the context
    matches.  Each of the three rules gives the identifier field, if
    any, and then attempts the service field of 4.3; a context that
    matches no shape, or is absent, gives the empty set. *)
Definition extract `{!stg.Impl} (env : Env) (ctx : LoggingContext) : list zap.Field :=
  match ctx with
  | CtxGin value =>
      let uuid := gin.get_string value "request_id" in
      enrich env (if stg.IsEmpty uuid then [] else [zap.String "x-request-id" uuid])
  | CtxRequest _ => enrich env []
  | CtxFasthttp value =>
      enrich env
        match fasthttp.user_value value "request_id" with
        | VString uuid => [zap.String "x-request-id" uuid]
        | _ => []
        end
  | CtxNil | CtxOther _ => []
  end.

(** Step 2 of the emission algorithm (4.4, 4.5):
    [fields := enrich(extract(context))]. *)
Definition pipeline `{!stg.Impl} (env : Env) (ctx : LoggingContext) : list zap.Field :=
  enrich env (extract env ctx).

(** The context has one of the three recognised shapes. *)
Definition recognised (ctx : LoggingContext) : bool :=
  match ctx with
  | CtxGin _ | CtxRequest _ | CtxFasthttp _ => true
  | CtxNil | CtxOther _ => false
  end.

End Spec.

(** The extras field InfoJSON attaches to the extracted fields: one
    field when the fragment is valid and the key and the map are not
    empty, none otherwise. *)
Definition attached_extras `{!stg.Impl, !json.Impl}
    (jbs : string) (keys : LoggerExtras) : list zap.Field :=
  if json.Valid jbs && negb (stg.IsEmpty (Key keys)) && (0 <? size (Value keys))%nat
  then [zap.Any (Key keys) (Value keys)]
  else [].

(** ** The methods on every interface value

    A pointer held in the interface may be nil: it still passes the
    type assertion of its type, and gin's GetString and fasthttp's
    UserValue dereference it.  Here the context is any interface
    value and a run may end in a panic; the methods are those of the
    source again, over these types. *)

Module Full.

Inductive Pointer (A : Type) : Type :=
  | NilPointer
  | PointerTo (a : A).

Arguments NilPointer {A}.
Arguments PointerTo {A} a.

(** The [interface{}] a Logger holds. *)
Inductive Interface : Type :=
  | INil
  | IGin (p : Pointer gin.Context)
  | IRequest (p : Pointer http.Request)
  | IFasthttp (p : Pointer fasthttp.RequestCtx)
  | IOther (v : GoValue).

(** How a run ends. *)
Inductive Outcome (A : Type) : Type :=
  | Returned (x : A)
  | Panicked.

Arguments Returned {A} x.
Arguments Panicked {A}.

(** A computation that may panic: the events up to the end of the
    run, and how it ended. *)
Definition Run (A : Type) : Type := Env -> list Event * Outcome A.

Definition ret {A} (x : A) : Run A := fun _ => ([], Returned x).

(** Nothing runs after a panic. *)
Definition bind {A B} (m : Run A) (k : A -> Run B) : Run B :=
  fun env =>
    match m env with
    | (t1, Returned x) => let '(t2, y) := k x env in (t1 ++ t2, y)
    | (t1, Panicked) => (t1, Panicked)
    end.

Definition panic {A} : Run A := fun _ => ([], Panicked).

(** A computation that cannot panic, as a run. *)
Definition lift {A} (m : Eff A) : Run A :=
  fun env => let '(t, x) := m env in (t, Returned x).

Declare Scope run_scope.
Delimit Scope run_scope with run.
Notation "'do' x <- m ; k" := (bind m (fun x => k))
  (at level 10, x name, m at level 100, k at level 200) : run_scope.
Local Open Scope run_scope.

(** c.GetString(key) through a pointer: the call on a nil pointer
    panics inside gin. *)
Definition GetString (p : Pointer gin.Context) (key : string) : Run string :=
  match p with
  | PointerTo c => lift (gin.GetString c key)
  | NilPointer => do _ <- lift (emit (EvGetString key)); panic
  end.

(** ctx.UserValue(key) through a pointer: the call on a nil pointer
    panics inside fasthttp. *)
Definition UserValue (p : Pointer fasthttp.RequestCtx) (key : string) : Run GoValue :=
  match p with
  | PointerTo c => lift (fasthttp.UserValue c key)
  | NilPointer => do _ <- lift (emit (EvUserValue key)); panic
  end.

(** The two-result type assertions; a nil pointer of the asserted type
    passes. *)
Definition as_gin (ctx : Interface) : option (Pointer gin.Context) :=
  match ctx with IGin value => Some value | _ => None end.

Definition as_request (ctx : Interface) : option (Pointer http.Request) :=
  match ctx with IRequest value => Some value | _ => None end.

Definition as_fasthttp (ctx : Interface) : option (Pointer fasthttp.RequestCtx) :=
  match ctx with IFasthttp value => Some value | _ => None end.

Record Logger : Type := mkLogger { Context : Interface }.

(** NewProduction(context) *)
Definition NewProduction (context : Interface) : Logger :=
  {| Context := context |}.

Section Methods.

Context `{!stg.Impl, !fmt.Impl, !json.Impl}.

Definition logFromContext (l : Logger) (ctx : Interface) : Run (list zap.Field) :=
  let fields : list zap.Field := [] in
  do fields <-
    match as_gin ctx with
    | Some value =>
        do uuid <- GetString value "request_id";
        let fields :=
          if negb (stg.IsEmpty uuid)
          then fields ++ [zap.String KeyXRequestID uuid]
          else fields in
        do service <- lift (os.LookupEnv "SERVICE_NAME");
        ret (append_if service fields (zap.String KeyService))
    | None => ret fields
    end;
  do fields <-
    match as_request ctx with
    | Some _ =>
        do service <- lift (os.LookupEnv "SERVICE_NAME");
        ret (append_if service fields (zap.String KeyService))
    | None => ret fields
    end;
  match as_fasthttp ctx with
  | Some value =>
      do v <- UserValue value "request_id";
      let fields :=
        match v with
        | VString uuid => fields ++ [zap.String KeyXRequestID uuid]
        | _ => fields
        end in
      do service <- lift (os.LookupEnv "SERVICE_NAME");
      ret (append_if service fields (zap.String KeyService))
  | None => ret fields
  end.

Definition Fatal (l : Logger) (msg : string) (keysAndValues : list GoValue) : Run unit :=
  do debug <- lift (os.LookupEnv "GO_DEBUG");
  match debug with
  | Some _ => lift (println (fmt.Sprintf msg keysAndValues))
  | None =>
      do nrfs <- logFromContext l (Context l);
      let msg := format_if_args msg keysAndValues in
      lift (Zap zap.FatalLevel msg nrfs)
  end.

Definition Error (l : Logger) (msg : string) (keysAndValues : list GoValue) : Run unit :=
  do debug <- lift (os.LookupEnv "GO_DEBUG");
  match debug with
  | Some _ => lift (println (fmt.Sprintf msg keysAndValues))
  | None =>
      do nrfs <- logFromContext l (Context l);
      let msg := format_if_args msg keysAndValues in
      lift (Zap zap.ErrorLevel msg nrfs)
  end.

Definition Warn (l : Logger) (msg : string) (keysAndValues : list GoValue) : Run unit :=
  do debug <- lift (os.LookupEnv "GO_DEBUG");
  match debug with
  | Some _ => lift (println (fmt.Sprintf msg keysAndValues))
  | None =>
      do nrfs <- logFromContext l (Context l);
      let msg := format_if_args msg keysAndValues in
      lift (Zap zap.WarnLevel msg nrfs)
  end.

Definition Info (l : Logger) (msg : string) (keysAndValues : list GoValue) : Run unit :=
  do debug <- lift (os.LookupEnv "GO_DEBUG");
  match debug with
  | Some _ => lift (println (fmt.Sprintf msg keysAndValues))
  | None =>
      do nrfs <- logFromContext l (Context l);
      let msg := format_if_args msg keysAndValues in
      lift (Zap zap.InfoLevel msg nrfs)
  end.

Definition Debug (l : Logger) (msg : string) (keysAndValues : list GoValue) : Run unit :=
  do debug <- lift (os.LookupEnv "GO_DEBUG");
  match debug with
  | Some _ => lift (println (fmt.Sprintf msg keysAndValues))
  | None =>
      do nrfs <- logFromContext l (Context l);
      let msg := format_if_args msg keysAndValues in
      lift (Zap zap.DebugLevel msg nrfs)
  end.

Definition InfoJSON (l : Logger) (msg jbs : string) (keys : LoggerExtras) : Run unit :=
  do nrfs <- logFromContext l (Context l);
  do debug <- lift (os.LookupEnv "GO_DEBUG");
  match debug with
  | Some _ => lift (println msg)
  | None =>
      if negb (json.Valid jbs) then lift (Zap zap.InfoLevel msg nrfs)
      else
        let nrfs :=
          if negb (stg.IsEmpty (Key keys)) && (0 <? size (Value keys))%nat
          then nrfs ++ [zap.Any (Key keys) (Value keys)]
          else nrfs in
        lift (Zap zap.InfoLevel (fmt.Sprintf "%s %s" [VString msg; VString jbs]) nrfs)
  end.

Definition log_method (sev : Severity)
  : Logger -> string -> list GoValue -> Run unit :=
  match sev with
  | SFatal => Fatal
  | SError => Error
  | SWarn => Warn
  | SInfo => Info
  | SDebug => Debug
  end.

End Methods.

(** The context is a nil pointer that the extraction pass
    dereferences.  (A nil pointer to http.Request is never
    dereferenced.) *)
Definition dereferences_nil (ctx : Interface) : bool :=
  match ctx with
  | IGin NilPointer | IFasthttp NilPointer => true
  | _ => false
  end.

(** A context whose pointer points to a request, as an interface
    value. *)
Definition embed (ctx : LoggingContext) : Interface :=
  match ctx with
  | CtxNil => INil
  | CtxGin value => IGin (PointerTo value)
  | CtxRequest value => IRequest (PointerTo value)
  | CtxFasthttp value => IFasthttp (PointerTo value)
  | CtxOther value => IOther value
  end.

(** The outputs of a run: its engine calls and its raw lines. *)
Definition outputs (t : list Event) : nat :=
  (length (zap_calls t) + length (raw_writes t))%nat.

End Full.

(** ** Reference collaborators

    Executable stand-ins for the three foreign functions, used to run
    the logger on concrete calls.  The general theorems hold for any
    implementation of them. *)

Module Reference.

(** The double quote, by its code. *)
Definition dquote : ascii := "034"%char.

Definition to_chars (s : string) : list ascii := list_ascii_of_string s.
Definition of_chars (l : list ascii) : string := string_of_list_ascii l.

(** *** stg.IsEmpty: the string has no character *)

Definition IsEmpty (s : string) : bool := bool_decide (s = "").

(** *** json.Valid: one JSON value (RFC 8259) between optional blanks *)

Definition is_ws (c : ascii) : bool :=
  (c =? " ")%char || (c =? "009")%char || (c =? "010")%char || (c =? "013")%char.

Definition is_digit (c : ascii) : bool :=
  (48 <=? nat_of_ascii c)%nat && (nat_of_ascii c <=? 57)%nat.

Definition is_hex (c : ascii) : bool :=
  is_digit c
  || ((65 <=? nat_of_ascii c)%nat && (nat_of_ascii c <=? 70)%nat)
  || ((97 <=? nat_of_ascii c)%nat && (nat_of_ascii c <=? 102)%nat).

Fixpoint skip_ws (s : list ascii) : list ascii :=
  match s with
  | c :: r => if is_ws c then skip_ws r else s
  | [] => []
  end.

Fixpoint skip_digits (s : list ascii) : list ascii :=
  match s with
  | c :: r => if is_digit c then skip_digits r else s
  | [] => []
  end.

(** The rest of the input after a string whose opening quote was
    read. *)
Fixpoint scan_string (s : list ascii) : option (list ascii) :=
  match s with
  | [] => None
  | c :: r =>
      if (c =? dquote)%char then Some r
      else if (c =? "\")%char then
        match r with
        | e :: r1 =>
            if (e =? "u")%char then
              match r1 with
              | h1 :: h2 :: h3 :: h4 :: r2 =>
                  if is_hex h1 && is_hex h2 && is_hex h3 && is_hex h4
                  then scan_string r2 else None
              | _ => None
              end
            else if (e =? dquote)%char || (e =? "\")%char || (e =? "/")%char
                    || (e =? "b")%char || (e =? "f")%char || (e =? "n")%char
                    || (e =? "r")%char || (e =? "t")%char
            then scan_string r1 else None
        | [] => None
        end
      else if (nat_of_ascii c <? 32)%nat then None
      else scan_string r
  end.

(** The rest after the digits of a mandatory digit run. *)
Definition scan_digits1 (s : list ascii) : option (list ascii) :=
  match s with
  | c :: r => if is_digit c then Some (skip_digits r) else None
  | [] => None
  end.

Definition scan_exponent (s : list ascii) : option (list ascii) :=
  match s with
  | c :: r =>
      if (c =? "e")%char || (c =? "E")%char then
        match r with
        | sign :: r1 =>
            if (sign =? "+")%char || (sign =? "-")%char
            then scan_digits1 r1 else scan_digits1 r
        | [] => None
        end
      else Some s
  | [] => Some s
  end.

Definition scan_fraction (s : list ascii) : option (list ascii) :=
  match s with
  | c :: r =>
      if (c =? ".")%char then scan_digits1 r ≫= scan_exponent
      else scan_exponent s
  | [] => Some s
  end.

Definition scan_number (s : list ascii) : option (list ascii) :=
  let s := match s with
           | c :: r => if (c =? "-")%char then r else s
           | [] => s
           end in
  match s with
  | c :: r =>
      if (c =? "0")%char then scan_fraction r
      else if is_digit c then scan_fraction (skip_digits r)
      else None
  | [] => None
  end.

(** The rest after a literal name. *)
Fixpoint scan_literal (name s : list ascii) : option (list ascii) :=
  match name, s with
  | [], _ => Some s
  | n :: name, c :: r => if (n =? c)%char then scan_literal name r else None
  | _ :: _, [] => None
  end.

Inductive Mode : Type := MValue | MElements | MMembers.

(** The rest of the input after a value, after the elements and the
    closing bracket of an array, or after the members and the closing
    brace of an object. *)
Fixpoint scan (fuel : nat) (mode : Mode) (s : list ascii) : option (list ascii) :=
  match fuel with
  | O => None
  | S fuel =>
      match mode with
      | MValue =>
          match skip_ws s with
          | c :: r =>
              if (c =? "{")%char then
                match skip_ws r with
                | c1 :: r1 =>
                    if (c1 =? "}")%char then Some r1 else scan fuel MMembers (c1 :: r1)
                | [] => None
                end
              else if (c =? "[")%char then
                match skip_ws r with
                | c1 :: r1 =>
                    if (c1 =? "]")%char then Some r1 else scan fuel MElements (c1 :: r1)
                | [] => None
                end
              else if (c =? dquote)%char then scan_string r
              else if (c =? "t")%char then scan_literal (to_chars "rue") r
              else if (c =? "f")%char then scan_literal (to_chars "alse") r
              else if (c =? "n")%char then scan_literal (to_chars "ull") r
              else scan_number (c :: r)
          | [] => None
          end
      | MElements =>
          match scan fuel MValue s with
          | Some r =>
              match skip_ws r with
              | c :: r1 =>
                  if (c =? ",")%char then scan fuel MElements r1
                  else if (c =? "]")%char then Some r1
                  else None
              | [] => None
              end
          | None => None
          end
      | MMembers =>
          match skip_ws s with
          | c :: r =>
              if (c =? dquote)%char then
                match scan_string r with
                | Some r1 =>
                    match skip_ws r1 with
                    | c2 :: r2 =>
                        if (c2 =? ":")%char then
                          match scan fuel MValue r2 with
                          | Some r3 =>
                              match skip_ws r3 with
                              | c4 :: r4 =>
                                  if (c4 =? ",")%char then scan fuel MMembers r4
                                  else if (c4 =? "}")%char then Some r4
                                  else None
                              | [] => None
                              end
                          | None => None
                          end
                        else None
                    | [] => None
                    end
                | None => None
                end
              else None
          | [] => None
          end
      end
  end.

Definition Valid (s : string) : bool :=
  let cs := to_chars s in
  match scan (2 * length cs + 2) MValue cs with
  | Some r => match skip_ws r with [] => true | _ => false end
  | None => false
  end.

(** *** fmt.Sprintf, for the verbs %v %s %d %t and %% without flags,
    width or precision, over strings, ints, booleans and nil *)

Definition type_name (v : GoValue) : string :=
  match v with
  | VNil => "<nil>"
  | VString _ => "string"
  | VInt _ => "int"
  | VBool _ => "bool"
  end.

(** The operand in its default format (%v). *)
Definition show (v : GoValue) : string :=
  match v with
  | VNil => "<nil>"
  | VString s => s
  | VInt n => pretty n
  | VBool true => "true"
  | VBool false => "false"
  end.

(** [type=value], as the error forms of fmt print an operand. *)
Definition show_typed (v : GoValue) : string :=
  match v with
  | VNil => "<nil>"
  | _ => type_name v +:+ "=" +:+ show v
  end.

(** A verb that does not fit its operand: [%!verb(type=value)]. *)
Definition bad_verb (verb : ascii) (v : GoValue) : string :=
  "%!" +:+ String verb ("(" +:+ show_typed v +:+ ")").

Definition format_verb (verb : ascii) (v : GoValue) : string :=
  if (verb =? "v")%char then show v
  else
    match v with
    | VString s => if (verb =? "s")%char then s else bad_verb verb v
    | VInt n => if (verb =? "d")%char then pretty n else bad_verb verb v
    | VBool _ => if (verb =? "t")%char then show v else bad_verb verb v
    | VNil => bad_verb verb v
    end.

Fixpoint join_typed (args : list GoValue) : string :=
  match args with
  | [] => ""
  | [v] => show_typed v
  | v :: args => show_typed v +:+ ", " +:+ join_typed args
  end.

(** Operands left over when the format is used up. *)
Definition extra (args : list GoValue) : string :=
  match args with
  | [] => ""
  | _ => "%!(EXTRA " +:+ join_typed args +:+ ")"
  end.

Fixpoint doPrintf (format : list ascii) (args : list GoValue) : string :=
  match format with
  | [] => extra args
  | c :: r =>
      if (c =? "%")%char then
        match r with
        | [] => "%!(NOVERB)" +:+ extra args
        | verb :: r1 =>
            if (verb =? "%")%char then String "%" (doPrintf r1 args)
            else
              match args with
              | [] => "%!" +:+ String verb ("(MISSING)" +:+ doPrintf r1 [])
              | v :: args1 => format_verb verb v +:+ doPrintf r1 args1
              end
        end
      else String c (doPrintf r args)
  end.

Definition Sprintf (format : string) (args : list GoValue) : string :=
  doPrintf (to_chars format) args.

(** The three collaborators as instances. *)
Definition stg_impl : stg.Impl := {| stg.IsEmpty := IsEmpty |}.
Definition fmt_impl : fmt.Impl := {| fmt.Sprintf := Sprintf |}.
Definition json_impl : json.Impl := {| json.Valid := Valid |}.

End Reference.

(** ** Concrete loggers and environments for the examples *)

Module Examples.

(** A gin context whose [request_id] is ["abc"], and one whose
    [request_id] is the empty string. *)
Definition gin_abc : gin.Context := gin.mkContext {[ "request_id" := VString "abc" ]}.
Definition gin_empty : gin.Context := gin.mkContext {[ "request_id" := VString "" ]}.

(** A fasthttp context whose [request_id] user value is the empty
    string. *)
Definition fasthttp_empty : fasthttp.RequestCtx :=
  fasthttp.mkRequestCtx {[ "request_id" := VString "" ]}.

(** SERVICE_NAME is set, GO_DEBUG is not. *)
Definition env_service : Env := {[ "SERVICE_NAME" := "billing" ]}.

(** SERVICE_NAME and GO_DEBUG are both set. *)
Definition env_debug : Env := <[ "GO_DEBUG" := "1" ]> env_service.

(** The fragment [{"id":1}]. *)
Definition fragment_id : string :=
  "{" +:+ String Reference.dquote ("id" +:+ String Reference.dquote ":1}").

(** The extras [{key: "meta", value: {"a": 1}, filter: []}]. *)
Definition extras_meta : LoggerExtras :=
  mkLoggerExtras "meta" {[ "a" := VInt 1 ]} [].

End Examples.

(** * Properties *)

(** Unfolds a run of the effect layer down to the environment lookups. *)
Ltac run_eff :=
  cbv [trace result bind ret emit println Zap
       os.LookupEnv gin.GetString fasthttp.UserValue
       as_gin as_request as_fasthttp fst snd];
  cbn [app].

(** Settles the comparisons of field keys left by [with_key]. *)
Ltac key_cases :=
  unfold KeyService, KeyXRequestID in *;
  repeat case_decide; simplify_eq; rewrite ?app_nil_r; cbn [app].

(** ** The reference collaborators on the inputs of the examples *)

Example Reference_Sprintf_mismatch :
  Reference.Sprintf "value %d" [VString "not-a-number"]
  = "value %!d(string=not-a-number)".
Proof. reflexivity. Qed.

Example Reference_Sprintf_noverb : Reference.Sprintf "100%" [] = "100%!(NOVERB)".
Proof. reflexivity. Qed.

Example Reference_Valid_examples :
  Reference.Valid "[1, 2.5e3, true, null]" = true
  /\ Reference.Valid "{bad" = false
  /\ Reference.Valid "" = false
  /\ Reference.Valid "[1,]" = false.
Proof. vm_compute. done. Qed.

Lemma Reference_Sprintf_two_strings (a b : string) :
  Reference.Sprintf "%s %s" [VString a; VString b] = a +:+ " " +:+ b.
Proof.
  assert (Hnil : forall s : string, s +:+ "" = s).
  { intros s. induction s as [|c s IH]; [done |].
    change (String c (s +:+ "") = String c s). by rewrite IH. }
  change (a +:+ String " " (b +:+ "") = a +:+ String " " b).
  by rewrite Hnil.
Qed.

(** ** The extraction pass *)

Section Extraction.

Context `{!stg.Impl}.

Lemma append_if_service (env : Env) (fields : list zap.Field) :
  append_if (env !! "SERVICE_NAME") fields (zap.String KeyService)
  = fields ++ service_fields env.
Proof.
  unfold append_if, service_fields.
  destruct (env !! "SERVICE_NAME"); [done | by rewrite app_nil_r].
Qed.

Lemma enrich_service (env : Env) (fields : list zap.Field) :
  Spec.enrich env fields = fields ++ service_fields env.
Proof.
  unfold Spec.enrich, service_fields.
  destruct (env !! "SERVICE_NAME"); [done | by rewrite app_nil_r].
Qed.

Lemma logFromContext_CtxGin (l : Logger) (value : gin.Context) (env : Env) :
  logFromContext l (CtxGin value) env
  = ([EvGetString "request_id"; EvLookupEnv "SERVICE_NAME"],
     (if stg.IsEmpty (gin.get_string value "request_id") then []
      else [zap.String KeyXRequestID (gin.get_string value "request_id")])
     ++ service_fields env).
Proof.
  unfold logFromContext. run_eff. rewrite append_if_service.
  by destruct (stg.IsEmpty _).
Qed.

Lemma logFromContext_CtxRequest (l : Logger) (value : http.Request) (env : Env) :
  logFromContext l (CtxRequest value) env
  = ([EvLookupEnv "SERVICE_NAME"], service_fields env).
Proof. unfold logFromContext. run_eff. by rewrite append_if_service. Qed.

Lemma logFromContext_CtxFasthttp (l : Logger) (value : fasthttp.RequestCtx) (env : Env) :
  logFromContext l (CtxFasthttp value) env
  = ([EvUserValue "request_id"; EvLookupEnv "SERVICE_NAME"],
     match fasthttp.user_value value "request_id" with
     | VString uuid => [zap.String KeyXRequestID uuid]
     | _ => []
     end ++ service_fields env).
Proof.
  unfold logFromContext. run_eff. rewrite append_if_service.
  by destruct (fasthttp.user_value _ _).
Qed.

Lemma logFromContext_trace (l : Logger) (ctx : LoggingContext) (env : Env) :
  trace (logFromContext l ctx) env = extraction_events ctx.
Proof.
  unfold trace. destruct ctx.
  - reflexivity.
  - by rewrite logFromContext_CtxGin.
  - by rewrite logFromContext_CtxRequest.
  - by rewrite logFromContext_CtxFasthttp.
  - reflexivity.
Qed.

Lemma logFromContext_result (l : Logger) (ctx : LoggingContext) (env : Env) :
  result (logFromContext l ctx) env = Spec.extract env ctx.
Proof.
  unfold result. destruct ctx; cbn [Spec.extract].
  - reflexivity.
  - by rewrite logFromContext_CtxGin, enrich_service.
  - by rewrite logFromContext_CtxRequest, enrich_service.
  - rewrite logFromContext_CtxFasthttp, enrich_service. cbn [snd].
    by destruct (fasthttp.user_value _ _).
  - reflexivity.
Qed.

Lemma extraction_no_engine (ctx : LoggingContext) :
  zap_calls (extraction_events ctx) = [] /\ raw_writes (extraction_events ctx) = [].
Proof. by destruct ctx. Qed.

Lemma with_key_app (key : string) (f1 f2 : list zap.Field) :
  with_key key (f1 ++ f2) = with_key key f1 ++ with_key key f2.
Proof. apply filter_app. Qed.

Lemma with_key_String (key k v : string) :
  with_key key [zap.String k v] = if decide (k = key) then [zap.String k v] else [].
Proof.
  unfold with_key. rewrite filter_cons, filter_nil. cbn [zap.Key zap.String].
  by destruct (decide (k = key)).
Qed.

Lemma with_key_service_fields (key : string) (env : Env) :
  with_key key (service_fields env)
  = if decide (KeyService = key) then service_fields env else [].
Proof.
  unfold service_fields. destruct (env !! "SERVICE_NAME").
  - apply with_key_String.
  - by destruct (decide _).
Qed.

End Extraction.

(** ** What extraction yields, shape by shape *)

Section ExtractionByShape.

Context `{!stg.Impl}.

(** C5: for a gin context, the fields are the [x-request-id] field
    carrying the string found under [request_id] when that string is
    not empty, and no such field when it is empty, followed by one
    [service] field exactly when SERVICE_NAME is set. *)
Theorem extract_gin_request_id (l : Logger) (value : gin.Context) (env : Env) :
  let uuid := gin.get_string value "request_id" in
  let fields := result (logFromContext l (CtxGin value)) env in
  fields
  = (if stg.IsEmpty uuid then [] else [zap.String "x-request-id" uuid])
    ++ service_fields env
  /\ with_key "x-request-id" fields
     = (if stg.IsEmpty uuid then [] else [zap.String "x-request-id" uuid])
  /\ with_key "service" fields
     = match env !! "SERVICE_NAME" with
       | Some service => [zap.String "service" service]
       | None => []
       end.
Proof.
  intros uuid fields. subst fields. unfold result.
  rewrite logFromContext_CtxGin. cbn [snd]. fold uuid.
  split; [done |].
  rewrite !with_key_app, !with_key_service_fields.
  unfold service_fields.
  destruct (stg.IsEmpty uuid); rewrite ?with_key_String;
    destruct (env !! "SERVICE_NAME"); by key_cases.
Qed.

(** C6: a context that fails the three type assertions, the nil
    interface among them, yields the empty field set; the pass touches
    neither the context nor the environment, and it always returns. *)
Theorem extract_unmatched_context (l : Logger) (ctx : LoggingContext) (env : Env) :
  as_gin ctx = None -> as_request ctx = None -> as_fasthttp ctx = None ->
  logFromContext l ctx env = ([], []).
Proof.
  intros Hgin Hreq Hfast. unfold logFromContext.
  rewrite Hgin, Hreq, Hfast. reflexivity.
Qed.

(** C10: when the string under [request_id] is empty, a fasthttp
    context still yields an [x-request-id] field, with the empty
    value, while a gin context yields none. *)
Theorem empty_request_id_asymmetry
    (l : Logger) (gv : gin.Context) (fv : fasthttp.RequestCtx) (env : Env) :
  stg.IsEmpty "" = true ->
  gin.get_string gv "request_id" = "" ->
  fasthttp.userValues fv !! "request_id" = Some (VString "") ->
  with_key "x-request-id" (result (logFromContext l (CtxFasthttp fv)) env)
  = [zap.String "x-request-id" ""]
  /\ with_key "x-request-id" (result (logFromContext l (CtxGin gv)) env) = [].
Proof.
  intros Hempty Hgin Hfast. unfold result.
  rewrite logFromContext_CtxFasthttp, logFromContext_CtxGin. cbn [snd].
  unfold fasthttp.user_value. rewrite Hfast, Hgin, Hempty. cbn [from_option id].
  rewrite !with_key_app, !with_key_service_fields, with_key_String.
  by key_cases.
Qed.

End ExtractionByShape.

(** ** The emission paths *)

Section Emission.

Context `{!stg.Impl, !fmt.Impl, !json.Impl}.

Lemma zap_calls_app (t1 t2 : list Event) :
  zap_calls (t1 ++ t2) = zap_calls t1 ++ zap_calls t2.
Proof. apply omap_app. Qed.

Lemma raw_writes_app (t1 t2 : list Event) :
  raw_writes (t1 ++ t2) = raw_writes t1 ++ raw_writes t2.
Proof. apply omap_app. Qed.

(** A run of [logFromContext], split into its trace and its fields. *)
Lemma logFromContext_run (l : Logger) (ctx : LoggingContext) (env : Env) :
  logFromContext l ctx env
  = (extraction_events ctx, result (logFromContext l ctx) env).
Proof.
  rewrite <- (logFromContext_trace l ctx env). unfold trace, result.
  by destruct (logFromContext l ctx env).
Qed.

(** With GO_DEBUG set, a level method looks the variable up, prints
    the formatted message and returns. *)
Lemma log_method_bypass (sev : Severity) (l : Logger) (msg : string)
    (args : list GoValue) (env : Env) (v : string) :
  env !! "GO_DEBUG" = Some v ->
  log_method sev l msg args env
  = ([EvLookupEnv "GO_DEBUG"; EvPrintln (fmt.Sprintf msg args)], tt).
Proof.
  intros Hdebug.
  destruct sev; cbn [log_method];
    unfold Fatal, Error, Warn, Info, Debug; run_eff; by rewrite Hdebug.
Qed.

(** With GO_DEBUG unset, a level method looks the variable up, runs
    the extraction pass and ends with one engine call at its level. *)
Lemma log_method_engine (sev : Severity) (l : Logger) (msg : string)
    (args : list GoValue) (env : Env) :
  env !! "GO_DEBUG" = None ->
  log_method sev l msg args env
  = (EvLookupEnv "GO_DEBUG" :: extraction_events (Context l)
       ++ [EvZap (zap_level sev) (format_if_args msg args)
             (result (logFromContext l (Context l)) env)],
     tt).
Proof.
  intros Hdebug.
  destruct sev; cbn [log_method zap_level];
    unfold Fatal, Error, Warn, Info, Debug; run_eff;
    by rewrite Hdebug, logFromContext_run.
Qed.

(** With GO_DEBUG set, InfoJSON has already run the extraction pass
    when it tests the variable; it then prints the message as it is. *)
Lemma InfoJSON_bypass (l : Logger) (msg jbs : string) (keys : LoggerExtras)
    (env : Env) (v : string) :
  env !! "GO_DEBUG" = Some v ->
  InfoJSON l msg jbs keys env
  = (extraction_events (Context l) ++ [EvLookupEnv "GO_DEBUG"; EvPrintln msg], tt).
Proof.
  intros Hdebug. unfold InfoJSON. run_eff.
  by rewrite logFromContext_run, Hdebug.
Qed.

(** With GO_DEBUG unset, InfoJSON ends with one engine call at Info. *)
Lemma InfoJSON_engine (l : Logger) (msg jbs : string) (keys : LoggerExtras) (env : Env) :
  env !! "GO_DEBUG" = None ->
  InfoJSON l msg jbs keys env
  = (extraction_events (Context l)
       ++ [EvLookupEnv "GO_DEBUG";
           if json.Valid jbs
           then EvZap zap.InfoLevel (fmt.Sprintf "%s %s" [VString msg; VString jbs])
                  (if negb (stg.IsEmpty (Key keys)) && (0 <? size (Value keys))%nat
                   then result (logFromContext l (Context l)) env
                        ++ [zap.Any (Key keys) (Value keys)]
                   else result (logFromContext l (Context l)) env)
           else EvZap zap.InfoLevel msg (result (logFromContext l (Context l)) env)],
     tt).
Proof.
  intros Hdebug. unfold InfoJSON. run_eff.
  rewrite logFromContext_run, Hdebug. cbn [fst snd].
  by destruct (json.Valid jbs).
Qed.

Lemma with_key_service_extract (env : Env) (ctx : LoggingContext) :
  with_key "service" (Spec.extract env ctx)
  = if Spec.recognised ctx then Spec.enrich env [] else [].
Proof.
  destruct ctx as [| value | value | value | value];
    cbn [Spec.extract Spec.recognised]; try done;
    rewrite !enrich_service, ?with_key_app, with_key_service_fields;
    unfold service_fields.
  - destruct (stg.IsEmpty _), (env !! "SERVICE_NAME"); by key_cases.
  - destruct (env !! "SERVICE_NAME"); by key_cases.
  - destruct (fasthttp.user_value _ _), (env !! "SERVICE_NAME"); by key_cases.
Qed.

(** C8: on the engine path of a level method the message handed to
    the engine is the caller's string itself when no operand was
    passed, and [fmt.Sprintf] of the string and the operands when
    there is at least one. *)
Theorem severity_message_formatting (sev : Severity) (l : Logger) (msg : string)
    (args : list GoValue) (env : Env) :
  env !! "GO_DEBUG" = None ->
  zap_calls (trace (log_method sev l msg args) env)
  = [(zap_level sev,
      match args with
      | [] => msg
      | _ :: _ => fmt.Sprintf msg args
      end,
      result (logFromContext l (Context l)) env)].
Proof.
  intros Hdebug. unfold trace. rewrite log_method_engine by done. cbn [fst].
  change (?e :: ?t ++ ?u) with ([e] ++ t ++ u).
  rewrite !zap_calls_app, (proj1 (extraction_no_engine _)).
  by destruct args.
Qed.

(** C2, as the code has it: on the engine path the fields of a level
    method are [extract] of the logger's context, with no [enrich]
    step after it, and InfoJSON emits the same fields followed by the
    extras field when it attaches one.  Among the extracted fields
    there is one [service] field when SERVICE_NAME is set and the
    context is recognised, and none otherwise. *)
Theorem emitted_fields_by_shape (l : Logger) (env : Env) :
  env !! "GO_DEBUG" = None ->
  (forall sev msg args, exists m,
      zap_calls (trace (log_method sev l msg args) env)
      = [(zap_level sev, m, Spec.extract env (Context l))])
  /\ (forall msg jbs keys, exists m,
        zap_calls (trace (InfoJSON l msg jbs keys) env)
        = [(zap.InfoLevel, m, Spec.extract env (Context l) ++ attached_extras jbs keys)])
  /\ with_key "service" (Spec.extract env (Context l))
     = (if Spec.recognised (Context l)
        then match env !! "SERVICE_NAME" with
             | Some service => [zap.String "service" service]
             | None => []
             end
        else []).
Proof.
  intros Hdebug.
  assert (Hfields : result (logFromContext l (Context l)) env
                    = Spec.extract env (Context l))
    by apply logFromContext_result.
  split; [| split].
  - intros sev msg args. exists (format_if_args msg args).
    unfold trace. rewrite log_method_engine by done. cbn [fst].
    change (?e :: ?t ++ ?u) with ([e] ++ t ++ u).
    by rewrite !zap_calls_app, (proj1 (extraction_no_engine _)), Hfields.
  - intros msg jbs keys.
    unfold trace. rewrite InfoJSON_engine by done. cbn [fst].
    rewrite zap_calls_app, (proj1 (extraction_no_engine _)), Hfields.
    unfold attached_extras.
    destruct (json.Valid jbs); cbn [andb];
      [destruct (negb _ && _) |]; rewrite ?app_nil_r; by eexists.
  - rewrite with_key_service_extract. unfold Spec.enrich.
    by destruct (Spec.recognised _), (env !! "SERVICE_NAME").
Qed.

(** C3: on the engine path, with a fragment [json.Valid] accepts, a key
    that is not empty and a map with at least one entry, InfoJSON hands
    the engine one record at Info: the extracted fields followed by the
    field [key = value], and the message, a space and the fragment as
    text.  The filter list is not read: any two of them give the same
    run. *)
Theorem InfoJSON_merges_fragment_and_extras
    (l : Logger) (msg jbs key : string) (value : gmap string GoValue)
    (filter1 filter2 : list string) (env : Env) :
  (forall a b : string, fmt.Sprintf "%s %s" [VString a; VString b] = a +:+ " " +:+ b) ->
  env !! "GO_DEBUG" = None ->
  json.Valid jbs = true ->
  stg.IsEmpty key = false ->
  (0 < size value)%nat ->
  zap_calls (trace (InfoJSON l msg jbs (mkLoggerExtras key value filter1)) env)
  = [(zap.InfoLevel, msg +:+ " " +:+ jbs,
      result (logFromContext l (Context l)) env ++ [zap.Any key value])]
  /\ InfoJSON l msg jbs (mkLoggerExtras key value filter1) env
     = InfoJSON l msg jbs (mkLoggerExtras key value filter2) env.
Proof.
  intros Hfmt Hdebug Hvalid Hkey Hsize.
  unfold trace. rewrite !InfoJSON_engine by done. cbn [fst Key Value].
  split; [| done].
  rewrite zap_calls_app, (proj1 (extraction_no_engine _)), Hvalid, Hkey, Hfmt.
  apply Nat.ltb_lt in Hsize. by rewrite Hsize.
Qed.

(** C4: on the engine path, with a fragment [json.Valid] rejects,
    InfoJSON hands the engine one record at Info carrying the
    extracted fields and the message alone; the fragment and the
    extras do not reach the engine, nothing is printed, and the method
    returns. *)
Theorem InfoJSON_invalid_fragment
    (l : Logger) (msg jbs : string) (keys : LoggerExtras) (env : Env) :
  env !! "GO_DEBUG" = None ->
  json.Valid jbs = false ->
  InfoJSON l msg jbs keys env
  = (extraction_events (Context l)
       ++ [EvLookupEnv "GO_DEBUG";
           EvZap zap.InfoLevel msg (result (logFromContext l (Context l)) env)],
     tt)
  /\ zap_calls (trace (InfoJSON l msg jbs keys) env)
     = [(zap.InfoLevel, msg, result (logFromContext l (Context l)) env)]
  /\ raw_writes (trace (InfoJSON l msg jbs keys) env) = [].
Proof.
  intros Hdebug Hvalid. unfold trace.
  rewrite InfoJSON_engine by done. rewrite Hvalid. cbn [fst].
  rewrite zap_calls_app, raw_writes_app.
  by destruct (extraction_no_engine (Context l)) as [-> ->].
Qed.

(** With GO_DEBUG set, each of the five level methods does two
    things only: it looks GO_DEBUG up and prints [fmt.Sprintf] of the
    message and the operands.  It makes no engine call, does not read
    the context and looks up no other variable. *)
Theorem level_methods_short_circuit (sev : Severity) (l : Logger) (msg : string)
    (args : list GoValue) (env : Env) (v : string) :
  env !! "GO_DEBUG" = Some v ->
  let t := trace (log_method sev l msg args) env in
  t = [EvLookupEnv "GO_DEBUG"; EvPrintln (fmt.Sprintf msg args)]
  /\ zap_calls t = []
  /\ context_reads t = []
  /\ env_lookups t = ["GO_DEBUG"]
  /\ raw_writes t = [fmt.Sprintf msg args].
Proof.
  intros Hdebug t. subst t. unfold trace.
  by rewrite (log_method_bypass sev l msg args env v Hdebug).
Qed.

(** With GO_DEBUG set, InfoJSON makes no engine call and prints the
    message as it is, without the fragment. *)
Theorem InfoJSON_short_circuit (l : Logger) (msg jbs : string) (keys : LoggerExtras)
    (env : Env) (v : string) :
  env !! "GO_DEBUG" = Some v ->
  zap_calls (trace (InfoJSON l msg jbs keys) env) = []
  /\ raw_writes (trace (InfoJSON l msg jbs keys) env) = [msg].
Proof.
  intros Hdebug. unfold trace.
  rewrite (InfoJSON_bypass l msg jbs keys env v Hdebug). cbn [fst].
  rewrite zap_calls_app, raw_writes_app.
  by destruct (extraction_no_engine (Context l)) as [-> ->].
Qed.

End Emission.

(** ** The theorems on concrete calls *)

Section Concrete.

Import Examples.

#[local] Existing Instance Reference.stg_impl.
#[local] Existing Instance Reference.fmt_impl.
#[local] Existing Instance Reference.json_impl.

(** C1, at a call the claim covers: with GO_DEBUG set, InfoJSON on a
    gin context reads the context and looks SERVICE_NAME up before it
    tests GO_DEBUG, where Info on the same logger does neither. *)
Theorem InfoJSON_bypass_runs_extraction :
  let l := NewProduction (CtxGin gin_abc) in
  env_debug !! "GO_DEBUG" = Some "1"
  /\ trace (InfoJSON l "order" fragment_id extras_meta) env_debug
     = [EvGetString "request_id"; EvLookupEnv "SERVICE_NAME";
        EvLookupEnv "GO_DEBUG"; EvPrintln "order"]
  /\ context_reads (trace (InfoJSON l "order" fragment_id extras_meta) env_debug)
     = [EvGetString "request_id"]
  /\ env_lookups (trace (InfoJSON l "order" fragment_id extras_meta) env_debug)
     = ["SERVICE_NAME"; "GO_DEBUG"]
  /\ trace (Info l "order" []) env_debug
     = [EvLookupEnv "GO_DEBUG"; EvPrintln "order"].
Proof. vm_compute. done. Qed.

(** C2 as stated fails.  With SERVICE_NAME set, a logger over the nil
    context emits a record with no field at all, where [enrich] of
    [extract] of that context holds the [service] field; and a logger
    over a gin context emits the [service] field once, where [enrich]
    of [extract] holds it twice. *)
Lemma service_field_missing_without_shape :
  let l := NewProduction CtxNil in
  let g := NewProduction (CtxGin gin_abc) in
  env_service !! "GO_DEBUG" = None
  /\ env_service !! "SERVICE_NAME" = Some "billing"
  /\ zap_calls (trace (Info l "hello" []) env_service)
     = [(zap.InfoLevel, "hello", [])]
  /\ Spec.pipeline env_service (Context l) = [zap.String "service" "billing"]
  /\ with_key "service" ([] : list zap.Field) = []
  /\ zap_calls (trace (Info g "hello" []) env_service)
     = [(zap.InfoLevel, "hello",
         [zap.String "x-request-id" "abc"; zap.String "service" "billing"])]
  /\ Spec.pipeline env_service (Context g)
     = [zap.String "x-request-id" "abc"; zap.String "service" "billing";
        zap.String "service" "billing"].
Proof. vm_compute. done. Qed.

Lemma emitted_fields_by_shape_witness :
  env_service !! "GO_DEBUG" = None
  /\ (exists m, zap_calls (trace (Warn (NewProduction (CtxGin gin_abc)) "w" []) env_service)
               = [(zap.WarnLevel, m,
                   [zap.String "x-request-id" "abc"; zap.String "service" "billing"])])
  /\ (exists m, zap_calls (trace (Warn (NewProduction (CtxOther (VInt 7))) "w" []) env_service)
               = [(zap.WarnLevel, m, [])])
  /\ (exists m, zap_calls (trace (InfoJSON (NewProduction CtxNil) "order" fragment_id
                                     (mkLoggerExtras "service" {[ "a" := VInt 1 ]} []))
                             env_service)
               = [(zap.InfoLevel, m, [zap.Any "service" {[ "a" := VInt 1 ]}])]).
Proof.
  assert (Hdebug : env_service !! "GO_DEBUG" = None) by (vm_compute; reflexivity).
  split; [exact Hdebug |]. split; [| split].
  - destruct (emitted_fields_by_shape (NewProduction (CtxGin gin_abc)) env_service Hdebug)
      as (Hlevel & _ & _).
    exact (Hlevel SWarn "w" []).
  - destruct (emitted_fields_by_shape (NewProduction (CtxOther (VInt 7))) env_service Hdebug)
      as (Hlevel & _ & _).
    exact (Hlevel SWarn "w" []).
  - destruct (emitted_fields_by_shape (NewProduction CtxNil) env_service Hdebug)
      as (_ & Hjson & _).
    exact (Hjson "order" fragment_id (mkLoggerExtras "service" {[ "a" := VInt 1 ]} [])).
Defined.

Lemma InfoJSON_merges_fragment_and_extras_witness :
  env_service !! "GO_DEBUG" = None
  /\ json.Valid fragment_id = true
  /\ stg.IsEmpty "meta" = false
  /\ (0 < size ({[ "a" := VInt 1 ]} : gmap string GoValue))%nat
  /\ zap_calls (trace (InfoJSON (NewProduction (CtxGin gin_abc)) "order" fragment_id
                         extras_meta) env_service)
     = [(zap.InfoLevel, "order " +:+ fragment_id,
         [zap.String "x-request-id" "abc"; zap.String "service" "billing";
          zap.Any "meta" {[ "a" := VInt 1 ]}])].
Proof.
  assert (Hdebug : env_service !! "GO_DEBUG" = None) by (vm_compute; reflexivity).
  assert (Hvalid : json.Valid fragment_id = true) by (vm_compute; reflexivity).
  assert (Hkey : stg.IsEmpty "meta" = false) by (vm_compute; reflexivity).
  assert (Hsize : (0 < size ({[ "a" := VInt 1 ]} : gmap string GoValue))%nat)
    by (rewrite map_size_singleton; lia).
  repeat (split; [assumption |]).
  exact (proj1 (InfoJSON_merges_fragment_and_extras
                  (NewProduction (CtxGin gin_abc)) "order" fragment_id "meta"
                  {[ "a" := VInt 1 ]} [] ["a"] env_service
                  Reference_Sprintf_two_strings Hdebug Hvalid Hkey Hsize)).
Defined.

Lemma InfoJSON_invalid_fragment_witness :
  env_service !! "GO_DEBUG" = None
  /\ json.Valid "{bad" = false
  /\ zap_calls (trace (InfoJSON (NewProduction (CtxGin gin_abc)) "order" "{bad"
                         extras_meta) env_service)
     = [(zap.InfoLevel, "order",
         [zap.String "x-request-id" "abc"; zap.String "service" "billing"])].
Proof.
  assert (Hdebug : env_service !! "GO_DEBUG" = None) by (vm_compute; reflexivity).
  assert (Hvalid : json.Valid "{bad" = false) by (vm_compute; reflexivity).
  repeat (split; [assumption |]).
  exact (proj1 (proj2 (InfoJSON_invalid_fragment
                         (NewProduction (CtxGin gin_abc)) "order" "{bad" extras_meta
                         env_service Hdebug Hvalid))).
Defined.

Lemma extract_unmatched_context_witness :
  as_gin CtxNil = None /\ as_request CtxNil = None /\ as_fasthttp CtxNil = None
  /\ logFromContext (NewProduction CtxNil) CtxNil env_service = ([], []).
Proof.
  repeat (split; [reflexivity |]).
  exact (extract_unmatched_context (NewProduction CtxNil) CtxNil env_service
           eq_refl eq_refl eq_refl).
Defined.

Lemma severity_message_formatting_witness :
  env_service !! "GO_DEBUG" = None
  /\ zap_calls (trace (Info (NewProduction (CtxRequest (http.mkRequest "GET" "/"))) "100%" [])
                 env_service)
     = [(zap.InfoLevel, "100%", [zap.String "service" "billing"])]
  /\ zap_calls (trace (Error (NewProduction (CtxRequest (http.mkRequest "GET" "/")))
                         "code %d" [VInt 42]) env_service)
     = [(zap.ErrorLevel, "code 42", [zap.String "service" "billing"])].
Proof.
  assert (Hdebug : env_service !! "GO_DEBUG" = None) by (vm_compute; reflexivity).
  split; [exact Hdebug |]. split.
  - exact (severity_message_formatting SInfo
             (NewProduction (CtxRequest (http.mkRequest "GET" "/"))) "100%" []
             env_service Hdebug).
  - exact (severity_message_formatting SError
             (NewProduction (CtxRequest (http.mkRequest "GET" "/"))) "code %d" [VInt 42]
             env_service Hdebug).
Defined.

Lemma level_methods_short_circuit_witness :
  env_debug !! "GO_DEBUG" = Some "1"
  /\ trace (Debug (NewProduction (CtxGin gin_abc)) "value %d" [VInt 3]) env_debug
     = [EvLookupEnv "GO_DEBUG"; EvPrintln "value 3"].
Proof.
  assert (Hdebug : env_debug !! "GO_DEBUG" = Some "1") by (vm_compute; reflexivity).
  split; [exact Hdebug |].
  exact (proj1 (level_methods_short_circuit SDebug (NewProduction (CtxGin gin_abc))
                  "value %d" [VInt 3] env_debug "1" Hdebug)).
Defined.

Lemma InfoJSON_short_circuit_witness :
  env_debug !! "GO_DEBUG" = Some "1"
  /\ zap_calls (trace (InfoJSON (NewProduction (CtxGin gin_abc)) "order" fragment_id
                         extras_meta) env_debug) = []
  /\ raw_writes (trace (InfoJSON (NewProduction (CtxGin gin_abc)) "order" fragment_id
                          extras_meta) env_debug) = ["order"].
Proof.
  assert (Hdebug : env_debug !! "GO_DEBUG" = Some "1") by (vm_compute; reflexivity).
  split; [exact Hdebug |].
  exact (InfoJSON_short_circuit (NewProduction (CtxGin gin_abc)) "order" fragment_id
           extras_meta env_debug "1" Hdebug).
Defined.

Lemma empty_request_id_asymmetry_witness :
  stg.IsEmpty "" = true
  /\ gin.get_string gin_empty "request_id" = ""
  /\ fasthttp.userValues fasthttp_empty !! "request_id" = Some (VString "")
  /\ with_key "x-request-id"
       (result (logFromContext (NewProduction CtxNil) (CtxFasthttp fasthttp_empty)) env_service)
     = [zap.String "x-request-id" ""]
  /\ with_key "x-request-id"
       (result (logFromContext (NewProduction CtxNil) (CtxGin gin_empty)) env_service)
     = [].
Proof.
  assert (Hempty : stg.IsEmpty "" = true) by reflexivity.
  assert (Hgin : gin.get_string gin_empty "request_id" = "") by (vm_compute; reflexivity).
  assert (Hfast : fasthttp.userValues fasthttp_empty !! "request_id" = Some (VString ""))
    by (vm_compute; reflexivity).
  repeat (split; [assumption |]).
  exact (empty_request_id_asymmetry (NewProduction CtxNil) gin_empty fasthttp_empty
           env_service Hempty Hgin Hfast).
Defined.

End Concrete.

(** ** Further properties of the extraction pass *)

Section ExtractionFurther.

Context `{!stg.Impl}.

(** The fields of a pass read only SERVICE_NAME of the environment. *)
Lemma logFromContext_env (l : Logger) (ctx : LoggingContext) (env1 env2 : Env) :
  env1 !! "SERVICE_NAME" = env2 !! "SERVICE_NAME" ->
  logFromContext l ctx env1 = logFromContext l ctx env2.
Proof.
  intros Hservice.
  assert (Hfields : service_fields env1 = service_fields env2)
    by (unfold service_fields; by rewrite Hservice).
  destruct ctx.
  - reflexivity.
  - by rewrite !logFromContext_CtxGin, Hfields.
  - by rewrite !logFromContext_CtxRequest, Hfields.
  - by rewrite !logFromContext_CtxFasthttp, Hfields.
  - reflexivity.
Qed.

(** A net/http request contributes no identifier: the pass does not
    read the request, looks SERVICE_NAME up once, and yields the
    [service] field or nothing. *)
Theorem extract_http_request_service_only
    (l : Logger) (value : http.Request) (env : Env) :
  let t := trace (logFromContext l (CtxRequest value)) env in
  let fields := result (logFromContext l (CtxRequest value)) env in
  context_reads t = []
  /\ env_lookups t = ["SERVICE_NAME"]
  /\ with_key "x-request-id" fields = []
  /\ fields = match env !! "SERVICE_NAME" with
              | Some service => [zap.String "service" service]
              | None => []
              end.
Proof.
  intros t fields. subst t fields. unfold trace, result.
  rewrite logFromContext_CtxRequest. cbn [fst snd]. unfold service_fields.
  by destruct (env !! "SERVICE_NAME").
Qed.

(** Whatever the context and the environment, the extracted fields are
    at most one [x-request-id] field followed by at most one [service]
    field, all of them string fields. *)
Theorem extracted_fields_invariant (l : Logger) (ctx : LoggingContext) (env : Env) :
  let fields := result (logFromContext l ctx) env in
  fields = with_key "x-request-id" fields ++ with_key "service" fields
  /\ (length (with_key "x-request-id" fields) <= 1)%nat
  /\ (length (with_key "service" fields) <= 1)%nat
  /\ Forall (fun f => exists s, zap.Value f = zap.StringType s) fields.
Proof.
  intros fields. subst fields. unfold result.
  destruct ctx as [| value | value | value | value].
  - cbn. repeat split; first [done | lia].
  - rewrite logFromContext_CtxGin. cbn [snd]. unfold service_fields.
    destruct (stg.IsEmpty _), (env !! "SERVICE_NAME"); cbn;
      repeat split; try done; key_cases; cbn;
      first [done | lia | by repeat econstructor].
  - rewrite logFromContext_CtxRequest. cbn [snd]. unfold service_fields.
    destruct (env !! "SERVICE_NAME"); cbn;
      repeat split; try done; key_cases; cbn;
      first [done | lia | by repeat econstructor].
  - rewrite logFromContext_CtxFasthttp. cbn [snd]. unfold service_fields.
    destruct (fasthttp.user_value _ _), (env !! "SERVICE_NAME"); cbn;
      repeat split; try done; key_cases; cbn;
      first [done | lia | by repeat econstructor].
  - cbn. repeat split; first [done | lia].
Qed.

(** When SERVICE_NAME is set, to the empty string as well, a context of
    one of the three request types gets the [service] field with the
    variable's value, as its last field. *)
Theorem service_field_is_last
    (l : Logger) (ctx : LoggingContext) (env : Env) (service : string) :
  env !! "SERVICE_NAME" = Some service ->
  is_Some (as_gin ctx) \/ is_Some (as_request ctx) \/ is_Some (as_fasthttp ctx) ->
  last (result (logFromContext l ctx) env) = Some (zap.String "service" service).
Proof.
  intros Hservice Hshape. unfold result.
  assert (Hfields : service_fields env = [zap.String "service" service])
    by (unfold service_fields; by rewrite Hservice).
  destruct ctx as [| value | value | value | value]; cbn in Hshape.
  - destruct Hshape as [[? ?] | [[? ?] | [? ?]]]; done.
  - rewrite logFromContext_CtxGin, Hfields. cbn [snd]. apply last_snoc.
  - by rewrite logFromContext_CtxRequest, Hfields.
  - rewrite logFromContext_CtxFasthttp, Hfields. cbn [snd]. apply last_snoc.
  - destruct Hshape as [[? ?] | [[? ?] | [? ?]]]; done.
Qed.

(** A gin context with no [request_id] key, or with a value there that
    is not a string, gets no [x-request-id] field (GetString yields the
    empty string, which [stg.IsEmpty] accepts). *)
Theorem gin_request_id_missing_or_not_string
    (l : Logger) (value : gin.Context) (env : Env) :
  stg.IsEmpty "" = true ->
  (forall s, gin.Keys value !! "request_id" <> Some (VString s)) ->
  result (logFromContext l (CtxGin value)) env = service_fields env.
Proof.
  intros Hempty Hkey. unfold result. rewrite logFromContext_CtxGin. cbn [snd].
  assert (Huuid : gin.get_string value "request_id" = "").
  { unfold gin.get_string.
    destruct (gin.Keys value !! "request_id") as [[| s | n | b] |] eqn:Hlookup;
      try done.
    by destruct (Hkey s). }
  by rewrite Huuid, Hempty.
Qed.

End ExtractionFurther.

(** ** Further properties of the emission paths *)

Section EmissionFurther.

Context `{!stg.Impl, !fmt.Impl, !json.Impl}.

(** On the engine path, a fragment that is valid still reaches the
    message when the extras cannot be attached: with an empty key or
    an empty map the record carries the extracted fields alone. *)
Theorem InfoJSON_drops_empty_extras
    (l : Logger) (msg jbs : string) (keys : LoggerExtras) (env : Env) :
  env !! "GO_DEBUG" = None ->
  json.Valid jbs = true ->
  stg.IsEmpty (Key keys) = true \/ Value keys = ∅ ->
  zap_calls (trace (InfoJSON l msg jbs keys) env)
  = [(zap.InfoLevel, fmt.Sprintf "%s %s" [VString msg; VString jbs],
      result (logFromContext l (Context l)) env)].
Proof.
  intros Hdebug Hvalid Hextras. unfold trace.
  rewrite InfoJSON_engine by done. cbn [fst].
  rewrite zap_calls_app, (proj1 (extraction_no_engine _)), Hvalid.
  destruct Hextras as [-> | ->]; [done |].
  rewrite map_size_empty. by rewrite andb_false_r.
Qed.

(** On the engine path the extras field is appended after the
    extracted fields and replaces none of them: a key that is already
    there, [service] or [x-request-id], is then carried twice. *)
Theorem InfoJSON_appends_without_replacing
    (l : Logger) (msg jbs key : string) (value : gmap string GoValue)
    (filter : list string) (env : Env) :
  env !! "GO_DEBUG" = None ->
  json.Valid jbs = true ->
  stg.IsEmpty key = false ->
  (0 < size value)%nat ->
  exists m fields,
    zap_calls (trace (InfoJSON l msg jbs (mkLoggerExtras key value filter)) env)
    = [(zap.InfoLevel, m, fields)]
    /\ with_key key fields
       = with_key key (result (logFromContext l (Context l)) env) ++ [zap.Any key value].
Proof.
  intros Hdebug Hvalid Hkey Hsize. unfold trace.
  rewrite InfoJSON_engine by done. cbn [fst Key Value].
  rewrite zap_calls_app, (proj1 (extraction_no_engine _)), Hvalid, Hkey.
  apply Nat.ltb_lt in Hsize. rewrite Hsize. cbn.
  eexists _, _. split; [done |].
  rewrite with_key_app. f_equal.
  unfold with_key. rewrite filter_cons, filter_nil. cbn [zap.Key zap.Any].
  by rewrite decide_True.
Qed.

(** On the engine path, InfoJSON with a fragment [json.Valid] rejects
    hands the engine the very record that Info hands it for the same
    message without operands. *)
Theorem InfoJSON_invalid_is_Info
    (l : Logger) (msg jbs : string) (keys : LoggerExtras) (env : Env) :
  env !! "GO_DEBUG" = None ->
  json.Valid jbs = false ->
  zap_calls (trace (InfoJSON l msg jbs keys) env)
  = zap_calls (trace (Info l msg []) env).
Proof.
  intros Hdebug Hvalid. unfold trace.
  rewrite InfoJSON_engine by done.
  change (Info l msg []) with (log_method SInfo l msg []).
  rewrite (log_method_engine SInfo l msg [] env Hdebug).
  rewrite Hvalid. cbn [fst zap_level].
  change (?e :: ?t ++ ?u) with ([e] ++ t ++ u).
  by rewrite !zap_calls_app, (proj1 (extraction_no_engine _)).
Qed.

(** The methods read two variables only: two environments that agree
    on GO_DEBUG and on SERVICE_NAME give the same run of every level
    method and of InfoJSON. *)
Theorem runs_depend_on_two_variables
    (sev : Severity) (l : Logger) (msg jbs : string) (args : list GoValue)
    (keys : LoggerExtras) (env1 env2 : Env) :
  env1 !! "GO_DEBUG" = env2 !! "GO_DEBUG" ->
  env1 !! "SERVICE_NAME" = env2 !! "SERVICE_NAME" ->
  log_method sev l msg args env1 = log_method sev l msg args env2
  /\ InfoJSON l msg jbs keys env1 = InfoJSON l msg jbs keys env2.
Proof.
  intros Hdebug Hservice.
  assert (Hfields : result (logFromContext l (Context l)) env1
                    = result (logFromContext l (Context l)) env2)
    by (unfold result; by rewrite (logFromContext_env l _ env1 env2 Hservice)).
  destruct (env2 !! "GO_DEBUG") as [v |] eqn:Hdebug2.
  - split.
    + by rewrite (log_method_bypass sev l msg args env1 v Hdebug),
        (log_method_bypass sev l msg args env2 v Hdebug2).
    + by rewrite (InfoJSON_bypass l msg jbs keys env1 v Hdebug),
        (InfoJSON_bypass l msg jbs keys env2 v Hdebug2).
  - split.
    + by rewrite (log_method_engine sev l msg args env1 Hdebug),
        (log_method_engine sev l msg args env2 Hdebug2), Hfields.
    + by rewrite (InfoJSON_engine l msg jbs keys env1 Hdebug),
        (InfoJSON_engine l msg jbs keys env2 Hdebug2), Hfields.
Qed.

(** The switch is the presence of GO_DEBUG, not its value: set to any
    two strings, the empty one included, the variable gives the same
    run, which makes no engine call. *)
Theorem GO_DEBUG_value_is_ignored
    (sev : Severity) (l : Logger) (msg jbs : string) (args : list GoValue)
    (keys : LoggerExtras) (env : Env) (v1 v2 : string) :
  log_method sev l msg args (<["GO_DEBUG" := v1]> env)
  = log_method sev l msg args (<["GO_DEBUG" := v2]> env)
  /\ InfoJSON l msg jbs keys (<["GO_DEBUG" := v1]> env)
     = InfoJSON l msg jbs keys (<["GO_DEBUG" := v2]> env)
  /\ zap_calls (trace (log_method sev l msg args) (<["GO_DEBUG" := v1]> env)) = []
  /\ zap_calls (trace (InfoJSON l msg jbs keys) (<["GO_DEBUG" := v1]> env)) = [].
Proof.
  assert (Hset : forall v, (<["GO_DEBUG" := v]> env : Env) !! "GO_DEBUG" = Some v)
    by (intros v; apply lookup_insert_eq).
  unfold trace.
  rewrite (log_method_bypass sev l msg args _ v1 (Hset v1)),
    (log_method_bypass sev l msg args _ v2 (Hset v2)),
    (InfoJSON_bypass l msg jbs keys _ v1 (Hset v1)),
    (InfoJSON_bypass l msg jbs keys _ v2 (Hset v2)).
  cbn [fst]. rewrite zap_calls_app, (proj1 (extraction_no_engine _)).
  by repeat split.
Qed.

End EmissionFurther.

(** ** The further properties on concrete calls *)

Section ConcreteFurther.

Import Examples.

#[local] Existing Instance Reference.stg_impl.
#[local] Existing Instance Reference.fmt_impl.
#[local] Existing Instance Reference.json_impl.

Lemma service_field_is_last_witness :
  ({[ "SERVICE_NAME" := "" ]} : Env) !! "SERVICE_NAME" = Some ""
  /\ is_Some (as_gin (CtxGin gin_abc))
  /\ result (logFromContext (NewProduction CtxNil) (CtxGin gin_abc))
       {[ "SERVICE_NAME" := "" ]}
     = [zap.String "x-request-id" "abc"; zap.String "service" ""]
  /\ last (result (logFromContext (NewProduction CtxNil) (CtxGin gin_abc))
             {[ "SERVICE_NAME" := "" ]})
     = Some (zap.String "service" "").
Proof.
  assert (Hservice : ({[ "SERVICE_NAME" := "" ]} : Env) !! "SERVICE_NAME" = Some "")
    by (vm_compute; reflexivity).
  assert (Hshape : is_Some (as_gin (CtxGin gin_abc))) by (by eexists).
  split; [exact Hservice |]. split; [exact Hshape |].
  split; [vm_compute; reflexivity |].
  exact (service_field_is_last (NewProduction CtxNil) (CtxGin gin_abc)
           {[ "SERVICE_NAME" := "" ]} "" Hservice (or_introl Hshape)).
Defined.

Lemma gin_request_id_missing_or_not_string_witness :
  stg.IsEmpty "" = true
  /\ (forall s, ({[ "request_id" := VInt 7 ]} : gmap string GoValue) !! "request_id"
               <> Some (VString s))
  /\ result (logFromContext (NewProduction CtxNil)
               (CtxGin (gin.mkContext {[ "request_id" := VInt 7 ]}))) env_service
     = [zap.String "service" "billing"].
Proof.
  assert (Hempty : stg.IsEmpty "" = true) by reflexivity.
  assert (Hkey : forall s, ({[ "request_id" := VInt 7 ]} : gmap string GoValue)
                             !! "request_id" <> Some (VString s)).
  { intros s. rewrite lookup_singleton_eq. discriminate. }
  split; [exact Hempty |]. split; [exact Hkey |].
  exact (gin_request_id_missing_or_not_string (NewProduction CtxNil)
           (gin.mkContext {[ "request_id" := VInt 7 ]}) env_service Hempty Hkey).
Defined.

Lemma InfoJSON_drops_empty_extras_witness :
  env_service !! "GO_DEBUG" = None
  /\ json.Valid fragment_id = true
  /\ Value (mkLoggerExtras "meta" ∅ []) = ∅
  /\ zap_calls (trace (InfoJSON (NewProduction (CtxGin gin_abc)) "order" fragment_id
                         (mkLoggerExtras "meta" ∅ [])) env_service)
     = [(zap.InfoLevel, "order " +:+ fragment_id,
         [zap.String "x-request-id" "abc"; zap.String "service" "billing"])].
Proof.
  assert (Hdebug : env_service !! "GO_DEBUG" = None) by (vm_compute; reflexivity).
  assert (Hvalid : json.Valid fragment_id = true) by (vm_compute; reflexivity).
  split; [exact Hdebug |]. split; [exact Hvalid |]. split; [reflexivity |].
  exact (InfoJSON_drops_empty_extras (NewProduction (CtxGin gin_abc)) "order"
           fragment_id (mkLoggerExtras "meta" ∅ []) env_service Hdebug Hvalid
           (or_intror eq_refl)).
Defined.

Lemma InfoJSON_appends_without_replacing_witness :
  env_service !! "GO_DEBUG" = None
  /\ json.Valid fragment_id = true
  /\ stg.IsEmpty "service" = false
  /\ (0 < size ({[ "a" := VInt 1 ]} : gmap string GoValue))%nat
  /\ exists m fields,
       zap_calls (trace (InfoJSON (NewProduction (CtxGin gin_abc)) "order" fragment_id
                           (mkLoggerExtras "service" {[ "a" := VInt 1 ]} [])) env_service)
       = [(zap.InfoLevel, m, fields)]
       /\ with_key "service" fields
          = [zap.String "service" "billing"; zap.Any "service" {[ "a" := VInt 1 ]}].
Proof.
  assert (Hdebug : env_service !! "GO_DEBUG" = None) by (vm_compute; reflexivity).
  assert (Hvalid : json.Valid fragment_id = true) by (vm_compute; reflexivity).
  assert (Hkey : stg.IsEmpty "service" = false) by (vm_compute; reflexivity).
  assert (Hsize : (0 < size ({[ "a" := VInt 1 ]} : gmap string GoValue))%nat)
    by (rewrite map_size_singleton; lia).
  repeat (split; [assumption |]).
  exact (InfoJSON_appends_without_replacing (NewProduction (CtxGin gin_abc)) "order"
           fragment_id "service" {[ "a" := VInt 1 ]} [] env_service
           Hdebug Hvalid Hkey Hsize).
Defined.

Lemma InfoJSON_invalid_is_Info_witness :
  env_service !! "GO_DEBUG" = None
  /\ json.Valid "{bad" = false
  /\ zap_calls (trace (InfoJSON (NewProduction (CtxGin gin_abc)) "order" "{bad"
                         extras_meta) env_service)
     = zap_calls (trace (Info (NewProduction (CtxGin gin_abc)) "order" []) env_service).
Proof.
  assert (Hdebug : env_service !! "GO_DEBUG" = None) by (vm_compute; reflexivity).
  assert (Hvalid : json.Valid "{bad" = false) by (vm_compute; reflexivity).
  repeat (split; [assumption |]).
  exact (InfoJSON_invalid_is_Info (NewProduction (CtxGin gin_abc)) "order" "{bad"
           extras_meta env_service Hdebug Hvalid).
Defined.

Lemma runs_depend_on_two_variables_witness :
  env_service !! "GO_DEBUG" = (<[ "HOME" := "/root" ]> env_service : Env) !! "GO_DEBUG"
  /\ env_service !! "SERVICE_NAME"
     = (<[ "HOME" := "/root" ]> env_service : Env) !! "SERVICE_NAME"
  /\ Warn (NewProduction (CtxGin gin_abc)) "w %d" [VInt 1] env_service
     = Warn (NewProduction (CtxGin gin_abc)) "w %d" [VInt 1]
         (<[ "HOME" := "/root" ]> env_service).
Proof.
  assert (Hdebug : env_service !! "GO_DEBUG"
                   = (<[ "HOME" := "/root" ]> env_service : Env) !! "GO_DEBUG")
    by (vm_compute; reflexivity).
  assert (Hservice : env_service !! "SERVICE_NAME"
                     = (<[ "HOME" := "/root" ]> env_service : Env) !! "SERVICE_NAME")
    by (vm_compute; reflexivity).
  repeat (split; [assumption |]).
  exact (proj1 (runs_depend_on_two_variables SWarn (NewProduction (CtxGin gin_abc))
                  "w %d" "{}" [VInt 1] extras_meta env_service
                  (<[ "HOME" := "/root" ]> env_service) Hdebug Hservice)).
Defined.

End ConcreteFurther.

(** ** The methods on every interface value: runs and panics *)

(** Unfolds a run that may panic down to the environment lookups. *)
Ltac run_full :=
  cbv [Full.logFromContext Full.Fatal Full.Error Full.Warn Full.Info Full.Debug
       Full.InfoJSON Full.log_method Full.Context Full.NewProduction
       Full.bind Full.ret Full.lift Full.panic Full.GetString Full.UserValue
       Full.as_gin Full.as_request Full.as_fasthttp Full.embed
       bind ret emit println Zap os.LookupEnv gin.GetString fasthttp.UserValue
       fst snd];
  cbn [app].

Section FullRuns.

Context `{!stg.Impl, !fmt.Impl, !json.Impl}.

(** On a context whose pointer points to a request, the pass of
    [Full] is the pass of the total model, which returns. *)
Lemma Full_logFromContext_embed
    (l : Logger) (fl : Full.Logger) (ctx : LoggingContext) (env : Env) :
  Full.logFromContext fl (Full.embed ctx) env = Full.lift (logFromContext l ctx) env.
Proof.
  destruct ctx; unfold logFromContext; run_full; run_eff; reflexivity.
Qed.

(** The same for the level methods and for InfoJSON. *)
Lemma Full_log_method_embed
    (sev : Severity) (l : Logger) (msg : string) (args : list GoValue) (env : Env) :
  Full.log_method sev (Full.NewProduction (Full.embed (Context l))) msg args env
  = Full.lift (log_method sev l msg args) env.
Proof.
  pose proof (Full_logFromContext_embed l
                (Full.NewProduction (Full.embed (Context l))) (Context l) env) as Hpass.
  destruct sev; cbn [log_method Full.log_method];
    unfold Full.Fatal, Full.Error, Full.Warn, Full.Info, Full.Debug,
      Fatal, Error, Warn, Info, Debug;
    cbv [Full.bind Full.lift Full.Context Full.NewProduction bind os.LookupEnv]
      in *;
    destruct (env !! "GO_DEBUG"); try reflexivity;
    rewrite Hpass; by destruct (logFromContext l (Context l) env).
Qed.

Lemma Full_InfoJSON_embed
    (l : Logger) (msg jbs : string) (keys : LoggerExtras) (env : Env) :
  Full.InfoJSON (Full.NewProduction (Full.embed (Context l))) msg jbs keys env
  = Full.lift (InfoJSON l msg jbs keys) env.
Proof.
  pose proof (Full_logFromContext_embed l
                (Full.NewProduction (Full.embed (Context l))) (Context l) env) as Hpass.
  unfold Full.InfoJSON, InfoJSON.
  cbv [Full.bind Full.lift Full.Context Full.NewProduction bind os.LookupEnv] in *.
  rewrite Hpass. destruct (logFromContext l (Context l) env) as [t fields].
  destruct (env !! "GO_DEBUG"); [reflexivity |].
  by destruct (json.Valid jbs).
Qed.

(** The pass returns on every context but the two nil pointers it
    dereferences, where it panics at the first read; it makes no
    output either way. *)
Lemma Full_logFromContext_outcome (fl : Full.Logger) (ctx : Full.Interface) (env : Env) :
  (if Full.dereferences_nil ctx
   then (Full.logFromContext fl ctx env).2 = Full.Panicked
   else exists fields, (Full.logFromContext fl ctx env).2 = Full.Returned fields)
  /\ Full.outputs (Full.logFromContext fl ctx env).1 = 0%nat.
Proof.
  destruct ctx as [| [| value] | [| value] | [| value] | value];
    cbn [Full.dereferences_nil]; run_full; cbn [fst snd]; split; by eauto.
Qed.

End FullRuns.

Section FullProperties.

Context `{!stg.Impl, !fmt.Impl, !json.Impl}.

Lemma Full_outputs_app (t1 t2 : list Event) :
  Full.outputs (t1 ++ t2) = (Full.outputs t1 + Full.outputs t2)%nat.
Proof.
  unfold Full.outputs. rewrite zap_calls_app, raw_writes_app, !length_app. lia.
Qed.

(** C7, as the code has it: for a context holding a pointer to a
    fasthttp.RequestCtx the pass runs that branch and returns: its
    events are the one user-value read and the one SERVICE_NAME
    lookup of the branch, no rule of another shape adds a field, and
    with no string under [request_id] the result is the service field
    alone or empty. *)
Theorem extract_fasthttp_returns
    (fl : Full.Logger) (value : fasthttp.RequestCtx) (env : Env) :
  let ids :=
    match fasthttp.userValues value !! "request_id" with
    | Some (VString uuid) => [zap.String "x-request-id" uuid]
    | _ => []
    end in
  Full.logFromContext fl (Full.IFasthttp (Full.PointerTo value)) env
  = ([EvUserValue "request_id"; EvLookupEnv "SERVICE_NAME"],
     Full.Returned (ids ++ service_fields env))
  /\ with_key "x-request-id" (ids ++ service_fields env) = ids
  /\ with_key "service" (ids ++ service_fields env) = service_fields env
  /\ (fasthttp.userValues value !! "request_id" = None ->
      ids ++ service_fields env = service_fields env).
Proof.
  intros ids. subst ids.
  change (Full.IFasthttp (Full.PointerTo value)) with (Full.embed (CtxFasthttp value)).
  rewrite (Full_logFromContext_embed (NewProduction CtxNil)).
  unfold Full.lift. rewrite logFromContext_CtxFasthttp.
  unfold fasthttp.user_value.
  rewrite !with_key_app, !with_key_service_fields.
  destruct (fasthttp.userValues value !! "request_id") as [[| uuid | n | b] |];
    cbn [from_option id]; rewrite ?with_key_String; repeat split; by key_cases.
Qed.


(** A call never produces two outputs.  It produces exactly one, a
    line on the raw channel or an engine call, unless the context is a
    nil pointer that the extraction pass dereferences and the pass
    runs (a level method with GO_DEBUG unset, InfoJSON always): then it
    panics before any output. *)
Theorem one_output_per_call
    (sev : Severity) (fl : Full.Logger) (msg jbs : string) (args : list GoValue)
    (keys : LoggerExtras) (env : Env) :
  Full.outputs (Full.log_method sev fl msg args env).1
  = match env !! "GO_DEBUG" with
    | None => if Full.dereferences_nil (Full.Context fl) then 0%nat else 1%nat
    | Some _ => 1%nat
    end
  /\ Full.outputs (Full.InfoJSON fl msg jbs keys env).1
     = (if Full.dereferences_nil (Full.Context fl) then 0%nat else 1%nat).
Proof.
  destruct (Full_logFromContext_outcome fl (Full.Context fl) env) as [Hout Hzero].
  revert Hout.
  destruct (Full.logFromContext fl (Full.Context fl) env) as [t o] eqn:Hrun.
  cbn [fst snd] in *.
  destruct (Full.dereferences_nil (Full.Context fl));
    [intros -> | intros [fields ->]].
  - split.
    + destruct sev; cbn [Full.log_method];
        unfold Full.Fatal, Full.Error, Full.Warn, Full.Info, Full.Debug;
        cbv [Full.bind Full.lift os.LookupEnv println Zap emit];
        destruct (env !! "GO_DEBUG"); try reflexivity;
        rewrite Hrun; cbn [fst]; by rewrite Full_outputs_app, Hzero.
    + unfold Full.InfoJSON.
      cbv [Full.bind Full.lift os.LookupEnv println Zap emit].
      by rewrite Hrun.
  - split.
    + destruct sev; cbn [Full.log_method];
        unfold Full.Fatal, Full.Error, Full.Warn, Full.Info, Full.Debug;
        cbv [Full.bind Full.lift os.LookupEnv println Zap emit];
        destruct (env !! "GO_DEBUG"); try reflexivity;
        rewrite Hrun; cbn [fst]; by rewrite !Full_outputs_app, Hzero.
    + unfold Full.InfoJSON.
      cbv [Full.bind Full.lift os.LookupEnv println Zap emit].
      rewrite Hrun.
      destruct (env !! "GO_DEBUG"); [| destruct (json.Valid jbs)];
        cbn [fst negb]; by rewrite !Full_outputs_app, Hzero.
Qed.

End FullProperties.

(** ** Nil pointers on concrete calls *)

Section FullConcrete.

Import Examples.

#[local] Existing Instance Reference.stg_impl.
#[local] Existing Instance Reference.fmt_impl.
#[local] Existing Instance Reference.json_impl.

(** C7 as stated fails: a nil pointer to fasthttp.RequestCtx passes
    the type assertion of the third shape, and the pass panics at the
    user-value read instead of returning. *)
Lemma nil_fasthttp_pointer_panics :
  let ctx := Full.IFasthttp Full.NilPointer in
  Full.as_fasthttp ctx = Some Full.NilPointer
  /\ Full.logFromContext (Full.NewProduction ctx) ctx env_service
     = ([EvUserValue "request_id"], Full.Panicked).
Proof. vm_compute. done. Qed.



End FullConcrete.
